(** * Gemini Flash API server: the request handlers of [index.js]

    A shallow embedding of the four Express route handlers of [index.js]
    ([/generate-text], [/generate-from-image], [/generate-from-document],
    [/generate-from-audio]) and of the parts of the runtime they touch:
    JavaScript values, thrown errors, the [fs] module on a finite map of
    paths, the [res] object, the console and the generative model client.

    A handler is a computation in a state-and-exception monad over a
    [World]; [try]/[catch]/[finally] are combinators of that monad. *)

From Stdlib Require Import Ascii String NArith PrimFloat.
From stdpp Require Import base strings list gmap.

Set Default Proof Using "Type".
Set Warnings "-register-all".
Local Open Scope string_scope.

(** ** JavaScript values *)

(** The values that reach the handlers: parsed JSON bodies, multipart form
    fields, and the objects the handlers build for the model and for
    [res.json].  Object fields are kept in insertion order. *)
Inductive Value : Type :=
| VUndefined
| VNull
| VBool (b : bool)
| VNum (x : float)
| VStr (s : string)
| VArr (items : list Value)
| VObj (fields : list (string * Value)).

(** [ToBoolean]: [undefined], [null], [false], [0], [-0], [NaN] and the
    empty string are falsy, everything else (every object and array
    included) is truthy. *)
Definition truthy (v : Value) : bool :=
  match v with
  | VUndefined | VNull => false
  | VBool b => b
  | VNum x => negb (PrimFloat.eqb x 0 || PrimFloat.is_nan x)
  | VStr s => negb (String.eqb s "")
  | VArr _ | VObj _ => true
  end.

(** [a || b] *)
Definition js_or (a b : Value) : Value := if truthy a then a else b.

Fixpoint assoc (k : string) (fields : list (string * Value)) : Value :=
  match fields with
  | [] => VUndefined
  | (k', v) :: rest => if String.eqb k k' then v else assoc k rest
  end.

Definition nullish (v : Value) : bool :=
  match v with
  | VUndefined | VNull => true
  | _ => false
  end.

(** ** Errors and completions *)

(** Every exception raised by the runtime, by [fs] and by the model
    client is an [Error] object; the handlers read only its [message]. *)
Record JsError : Type := mkError { name : string; message : string }.

Inductive Completion (A : Type) : Type :=
| Returned (a : A)
| Threw (e : JsError).
Arguments Returned {A} a.
Arguments Threw {A} e.

(** ** The world a handler runs in *)

(** A regular file under [uploads/]: its bytes, whether the process may
    read it, and whether the process may unlink it. *)
Record Inode : Type := mkInode {
  data : list Byte.byte;
  readable : bool;
  removable : bool
}.

(** What [upload.single(field)] leaves in [req.file]. *)
Record UploadedFile : Type := mkFile {
  path : string;
  mimetype : string;
  size : N
}.

Record Request : Type := mkRequest {
  body : Value;
  file : option UploadedFile
}.

(** The body handed to [res.json] (before serialisation) or the string
    handed to [res.send]. *)
Inductive Payload : Type :=
| Json (v : Value)
| Plain (s : string).

Record Response : Type := mkResponse { status : N; payload : Payload }.

(** Calls that leave the handler, in the order they are made. *)
Inductive Event : Type :=
| FsExists (p : string)
| FsRead (p : string)
| FsUnlink (p : string)
| Generate (input : Value)
| ConsoleError (label : string) (e : JsError).

Record World : Type := mkWorld {
  disk : gmap string Inode;
  sent : option Response;
  trace : list Event
}.

(** The state of the world when a handler is entered: nothing sent,
    nothing called yet. *)
Definition init (d : gmap string Inode) : World :=
  {| disk := d; sent := None; trace := [] |}.

Definition log (ev : Event) (w : World) : World :=
  {| disk := disk w; sent := sent w; trace := trace w ++ [ev] |}.

(** ** The handler monad *)

Definition M (A : Type) : Type := World -> Completion A * World.

Definition ret {A} (a : A) : M A := fun w => (Returned a, w).

Definition throw {A} (e : JsError) : M A := fun w => (Threw e, w).

Definition bind {A B} (c : M A) (k : A -> M B) : M B :=
  fun w =>
    match c w with
    | (Returned a, w') => k a w'
    | (Threw e, w') => (Threw e, w')
    end.

Notation "'let!' x ':=' c 'in' k" := (bind c (fun x => k))
  (at level 10, x name, c at level 100, k at level 200).

(** [try { block } catch (error) { handler error }] *)
Definition try_catch {A} (block : M A) (handler : JsError -> M A) : M A :=
  fun w =>
    match block w with
    | (Returned a, w') => (Returned a, w')
    | (Threw e, w') => handler e w'
    end.

(** [try { block } finally { finalizer }]: the finalizer runs on every
    completion of the block; when it throws, its error replaces the
    completion of the block. *)
Definition try_finally {A} (block : M A) (finalizer : M unit) : M A :=
  fun w =>
    match block w with
    | (r, w') =>
        match finalizer w' with
        | (Returned _, w'') => (r, w'')
        | (Threw e, w'') => (Threw e, w'')
        end
    end.

Definition run {A} (c : M A) (d : gmap string Inode) : Completion A * World :=
  c (init d).

(** ** Property access *)

(** [v.key] for the keys the handlers read.  Reading a property of
    [undefined] or [null] throws a [TypeError]; arrays and primitives
    have no own property of these names. *)
Definition own_prop (v : Value) (key : string) : Value :=
  match v with
  | VObj fields => assoc key fields
  | _ => VUndefined
  end.

Definition get_prop (v : Value) (key : string) : M Value :=
  match v with
  | VUndefined =>
      throw (mkError "TypeError"
        ("Cannot read properties of undefined (reading '" ++ key ++ "')"))
  | VNull =>
      throw (mkError "TypeError"
        ("Cannot read properties of null (reading '" ++ key ++ "')"))
  | _ => ret (own_prop v key)
  end.

(** [const { key } = v], with [source] the text of the right-hand side:
    the same lookup, with the [TypeError] of a destructuring pattern. *)
Definition destructure_prop (v : Value) (key source : string) : M Value :=
  match v with
  | VUndefined =>
      throw (mkError "TypeError"
        ("Cannot destructure property '" ++ key ++ "' of '" ++ source
         ++ "' as it is undefined."))
  | VNull =>
      throw (mkError "TypeError"
        ("Cannot destructure property '" ++ key ++ "' of '" ++ source
         ++ "' as it is null."))
  | _ => ret (own_prop v key)
  end.

(** ** The [fs] module *)

(** The errors of the system calls behind [fs], as Node reports them. *)
Definition ENOENT (syscall p : string) : JsError :=
  mkError "Error"
    ("ENOENT: no such file or directory, " ++ syscall ++ " '" ++ p ++ "'").
Definition EACCES (syscall p : string) : JsError :=
  mkError "Error" ("EACCES: permission denied, " ++ syscall ++ " '" ++ p ++ "'").
Definition EPERM (syscall p : string) : JsError :=
  mkError "Error"
    ("EPERM: operation not permitted, " ++ syscall ++ " '" ++ p ++ "'").

(** The whole content of the file at [p], or the error of [open]. *)
Definition read_file (d : gmap string Inode) (p : string)
  : Completion (list Byte.byte) :=
  match d !! p with
  | None => Threw (ENOENT "open" p)
  | Some i => if readable i then Returned (data i) else Threw (EACCES "open" p)
  end.

Module fs.

Definition existsSync (p : string) : M bool :=
  fun w =>
    (Returned (bool_decide (is_Some (disk w !! p))), log (FsExists p) w).

Definition readFileSync (p : string) : M (list Byte.byte) :=
  fun w => (read_file (disk w) p, log (FsRead p) w).

Definition unlinkSync (p : string) : M unit :=
  fun w =>
    let w' := log (FsUnlink p) w in
    match disk w !! p with
    | None => (Threw (ENOENT "unlink" p), w')
    | Some i =>
        if removable i
        then (Returned tt,
              {| disk := delete p (disk w);
                 sent := sent w';
                 trace := trace w' |})
        else (Threw (EPERM "unlink" p), w')
    end.

End fs.

(** ** [Buffer.prototype.toString("base64")] *)

Definition base64_alphabet : string :=
  "ABCDEFGHIJKLMNOPQRSTUVWXYZabcdefghijklmnopqrstuvwxyz0123456789+/".

(** The character of a six-bit group. *)
Definition base64_char (sextet : N) : ascii :=
  match String.get (N.to_nat sextet) base64_alphabet with
  | Some c => c
  | None => "="%char
  end.

(** Standard alphabet, three bytes to four characters, [=] padding on
    the last group. *)
Fixpoint base64 (bytes : list Byte.byte) : string :=
  match bytes with
  | [] => ""
  | [a] =>
      let n := N.shiftl (Byte.to_N a) 16 in
      String (base64_char (N.land (N.shiftr n 18) 63))
        (String (base64_char (N.land (N.shiftr n 12) 63)) "==")
  | [a; b] =>
      let n := N.lor (N.shiftl (Byte.to_N a) 16) (N.shiftl (Byte.to_N b) 8) in
      String (base64_char (N.land (N.shiftr n 18) 63))
        (String (base64_char (N.land (N.shiftr n 12) 63))
          (String (base64_char (N.land (N.shiftr n 6) 63)) "="))
  | a :: b :: c :: rest =>
      let n := N.lor (N.lor (N.shiftl (Byte.to_N a) 16)
                            (N.shiftl (Byte.to_N b) 8)) (Byte.to_N c) in
      String (base64_char (N.land (N.shiftr n 18) 63))
        (String (base64_char (N.land (N.shiftr n 12) 63))
          (String (base64_char (N.land (N.shiftr n 6) 63))
            (String (base64_char (N.land n 63)) (base64 rest))))
  end.

(** The position of a character in a string, if it occurs. *)
Fixpoint index_of (c : ascii) (s : string) : option N :=
  match s with
  | EmptyString => None
  | String c' rest =>
      if Ascii.eqb c c' then Some 0%N else option_map N.succ (index_of c rest)
  end.
(** The six-bit group a base64 character stands for. *)
Definition base64_index (c : ascii) : option N := index_of c base64_alphabet.

(** The inverse of [base64], used to state that the encoding loses
    nothing: four characters back to three bytes, the padded last group
    back to one or two. *)
Fixpoint base64_decode (s : string) : option (list Byte.byte) :=
  match s with
  | "" => Some []
  | String c0 (String c1 (String c2 (String c3 rest))) =>
      match base64_index c0, base64_index c1 with
      | Some s0, Some s1 =>
          let a := Byte.of_N (s0 * 4 + s1 / 16) in
          match base64_index c2, base64_index c3 with
          | Some s2, Some s3 =>
              match a, Byte.of_N (s1 mod 16 * 16 + s2 / 4),
                    Byte.of_N (s2 mod 4 * 64 + s3), base64_decode rest with
              | Some a, Some b, Some c, Some tail => Some (a :: b :: c :: tail)
              | _, _, _, _ => None
              end
          | Some s2, None =>
              if Ascii.eqb c3 "=" && String.eqb rest "" then
                match a, Byte.of_N (s1 mod 16 * 16 + s2 / 4) with
                | Some a, Some b => Some [a; b]
                | _, _ => None
                end
              else None
          | None, _ =>
              if Ascii.eqb c2 "=" && Ascii.eqb c3 "=" && String.eqb rest "" then
                match a with
                | Some a => Some [a]
                | None => None
                end
              else None
          end
      | _, _ => None
      end
  | _ => None
  end.

(** ** The console and the [res] object *)

Module console.

Definition error (label : string) (e : JsError) : M unit :=
  fun w => (Returned tt, log (ConsoleError label e) w).

End console.

(** Writing the response.  A second write on the same [res] throws
    [ERR_HTTP_HEADERS_SENT] and leaves the first response in place. *)
Definition respond (r : Response) : M unit :=
  fun w =>
    match sent w with
    | None => (Returned tt, {| disk := disk w; sent := Some r; trace := trace w |})
    | Some _ =>
        (Threw (mkError "Error"
           "Cannot set headers after they are sent to the client"), w)
    end.

Module res.

(** [res.json(v)]: status 200 unless [res.status] was called. *)
Definition json (v : Value) : M unit := respond (mkResponse 200 (Json v)).

(** [res.status(code).json(v)] *)
Definition status_json (code : N) (v : Value) : M unit :=
  respond (mkResponse code (Json v)).

(** [res.status(code).send(s)] for a string [s]. *)
Definition status_send (code : N) (s : string) : M unit :=
  respond (mkResponse code (Plain s)).

End res.

(** ** The generative model client *)

(** [model.generateContent(input)] resolves to a result whose [response]
    has a [text()] method, or rejects; [text()] itself may throw.  The
    client is outside the repository: it is a parameter of the handlers. *)
Record EnhancedResponse : Type := { text : Completion string }.
Record GenerateContentResult : Type := { response : EnhancedResponse }.
Record GenerativeModel : Type := {
  generateContent : Value -> Completion GenerateContentResult
}.

Definition model_generateContent (model : GenerativeModel) (input : Value)
  : M GenerateContentResult :=
  fun w => (generateContent model input, log (Generate input) w).

Definition response_text (r : EnhancedResponse) : M string :=
  fun w => (text r, w).

(** What the three lines
    [model.generateContent(input)], [result.response], [response.text()]
    yield together: the generated text, or the error thrown on the way. *)
Definition inference (model : GenerativeModel) (input : Value) : Completion string :=
  match generateContent model input with
  | Returned result => text (response result)
  | Threw e => Threw e
  end.

(** The parts of a model input, in the words of the design: an
    instruction text and an inline base64 blob with its mime type. *)
Definition Text (s : string) : Value := VStr s.
Definition InlineMedia (base64Data mimeType : string) : Value :=
  VObj [("inlineData",
         VObj [("data", VStr base64Data); ("mimeType", VStr mimeType)])].

(** ** Free identifiers of [index.js] *)

(** [fileToGenerativePart] is called by the image handler and declared
    nowhere in the program.  A handler is parameterised by what the
    identifier is bound to when the call is evaluated: [None] when it is
    unbound, [Some f] for a function of the path, the mime type and the
    disk. *)
Definition Helper : Type :=
  string -> string -> gmap string Inode -> Completion Value.

Definition call_fileToGenerativePart (binding : option Helper)
    (p mime : string) : M Value :=
  match binding with
  | None =>
      throw (mkError "ReferenceError" "fileToGenerativePart is not defined")
  | Some f => fun w => (f p mime (disk w), w)
  end.

(** The binding in the program as it is: none. *)
Definition fileToGenerativePart : option Helper := None.

(** Modelled from the spec: the Content-Part Encoder of the design
    (section 4.2), which [index.js] does not define: it reads the whole
    file, base64-encodes the bytes and returns the inline part with the
    mime type of the upload. *)
Definition encode : Helper :=
  fun p mime d =>
    match read_file d p with
    | Returned bytes => Returned (InlineMedia (base64 bytes) mime)
    | Threw e => Threw e
    end.

(** ** The handlers *)

(** The [finally] block of the three file handlers:
    [if (req.file && fs.existsSync(filePath)) fs.unlinkSync(filePath)]. *)
Definition cleanup (file : option UploadedFile) (filePath : string) : M unit :=
  match file with
  | None => ret tt
  | Some _ =>
      let! present := fs.existsSync filePath in
      if present then fs.unlinkSync filePath else ret tt
  end.

(** [POST /generate-text] *)
Definition generate_text (model : GenerativeModel) (req : Request) : M unit :=
  let! prompt := destructure_prop (body req) "prompt" "req.body" in
  try_catch
    (let! result := model_generateContent model prompt in
     let response := response result in
     let! output := response_text response in
     res.json (VObj [("output", VStr output)]))
    (fun error =>
       res.status_json 500 (VObj [("error", VStr (message error))])).

(** [POST /generate-from-image] *)
Definition generate_from_image (binding : option Helper)
    (model : GenerativeModel) (req : Request) : M unit :=
  let! field := get_prop (body req) "prompt" in
  let prompt := js_or field (VStr "Describe the image") in
  match file req with
  | None => res.status_send 400 "No image file uploaded."
  | Some f =>
      let! image := call_fileToGenerativePart binding (path f) (mimetype f) in
      try_finally
        (try_catch
           (let! result := model_generateContent model (VArr [prompt; image]) in
            let response := response result in
            let! output := response_text response in
            res.json (VObj [("output", VStr output)]))
           (fun error =>
              let! _ := console.error "Error processing image:" error in
              res.status_json 500 (VObj [("error", VStr (message error))])))
        (cleanup (file req) (path f))
  end.

(** [POST /generate-from-document] *)
Definition generate_from_document (model : GenerativeModel) (req : Request)
  : M unit :=
  match file req with
  | None => res.status_send 400 "No document file uploaded."
  | Some f =>
      let filePath := path f in
      try_finally
        (try_catch
           (let! buffer := fs.readFileSync filePath in
            let base64Data := base64 buffer in
            let mimeType := mimetype f in
            let documentPart :=
              VObj [("inlineData",
                     VObj [("data", VStr base64Data);
                           ("mimeType", VStr mimeType)])] in
            let! result :=
              model_generateContent model
                (VArr [VStr "Analyze this document:"; documentPart]) in
            let response := response result in
            let! output := response_text response in
            res.json (VObj [("output", VStr output)]))
           (fun error =>
              let! _ := console.error "Error processing document:" error in
              res.status_json 500 (VObj [("error", VStr (message error))])))
        (cleanup (file req) filePath)
  end.

(** [POST /generate-from-audio] *)
Definition generate_from_audio (model : GenerativeModel) (req : Request)
  : M unit :=
  match file req with
  | None => res.status_send 400 "No audio file uploaded."
  | Some f =>
      let filePath := path f in
      try_finally
        (try_catch
           (let! audioBuffer := fs.readFileSync filePath in
            let base64Audio := base64 audioBuffer in
            let mimeType := mimetype f in
            let audioPart :=
              VObj [("inlineData",
                     VObj [("data", VStr base64Audio);
                           ("mimeType", VStr mimeType)])] in
            let! result :=
              model_generateContent model
                (VArr [VStr "Transcribe or analyze the following audio:";
                       audioPart]) in
            let response := response result in
            let! output := response_text response in
            res.json (VObj [("output", VStr output)]))
           (fun error =>
              let! _ := console.error "Error processing audio:" error in
              res.status_json 500 (VObj [("error", VStr (message error))])))
        (cleanup (file req) filePath)
  end.

(** ** Definitions used in the statements *)

(** The response the [try]/[catch] of every handler maps an inference
    outcome to. *)
Definition reply (outcome : Completion string) : Response :=
  match outcome with
  | Returned t => mkResponse 200 (Json (VObj [("output", VStr t)]))
  | Threw e => mkResponse 500 (Json (VObj [("error", VStr (message e))]))
  end.

(** The document and the audio handler are the same code up to three
    string literals: [media_handler] is that code with the literals as
    parameters (see [generate_from_document_eq], [generate_from_audio_eq]). *)
Definition media_handler (missing instruction label : string)
    (model : GenerativeModel) (req : Request) : M unit :=
  match file req with
  | None => res.status_send 400 missing
  | Some f =>
      try_finally
        (try_catch
           (let! buffer := fs.readFileSync (path f) in
            let! result :=
              model_generateContent model
                (VArr [Text instruction;
                       InlineMedia (base64 buffer) (mimetype f)]) in
            let response := response result in
            let! output := response_text response in
            res.json (VObj [("output", VStr output)]))
           (fun error =>
              let! _ := console.error label error in
              res.status_json 500 (VObj [("error", VStr (message error))])))
        (cleanup (file req) (path f))
  end.

(** The input the handler submits for the bytes it read. *)
Definition media_input (instruction : string) (f : UploadedFile)
    (bytes : list Byte.byte) : Value :=
  VArr [Text instruction; InlineMedia (base64 bytes) (mimetype f)].

(** What the [try] block ends with: the text of the model, or the error
    of the read or of the model. *)
Definition media_outcome (instruction : string) (model : GenerativeModel)
    (f : UploadedFile) (d : gmap string Inode) : Completion string :=
  match read_file d (path f) with
  | Returned bytes => inference model (media_input instruction f bytes)
  | Threw e => Threw e
  end.

(** The events of the [try]/[catch] part. *)
Definition media_events (instruction label : string) (model : GenerativeModel)
    (f : UploadedFile) (d : gmap string Inode) : list Event :=
  FsRead (path f)
  :: match read_file d (path f) with
     | Returned bytes => [Generate (media_input instruction f bytes)]
     | Threw _ => []
     end
  ++ match media_outcome instruction model f d with
     | Returned _ => []
     | Threw e => [ConsoleError label e]
     end.

(** The prompt of line 37: [req.body.prompt || "Describe the image"]. *)
Definition image_prompt (req : Request) : Value :=
  js_or (own_prop (body req) "prompt") (VStr "Describe the image").

(** A 500 response whose [error] field holds a non-empty message. *)
Definition error_reply_nonempty (r : option Response) : Prop :=
  exists m,
    r = Some (mkResponse 500 (Json (VObj [("error", VStr m)]))) /\ m <> "".

(** The number of model calls and of console lines in a trace. *)
Definition is_generate (ev : Event) : bool :=
  match ev with Generate _ => true | _ => false end.
Definition is_console (ev : Event) : bool :=
  match ev with ConsoleError _ _ => true | _ => false end.
Definition is_fs (ev : Event) : bool :=
  match ev with FsExists _ | FsRead _ | FsUnlink _ => true | _ => false end.
Definition count (kind : Event -> bool) (events : list Event) : nat :=
  length (List.filter kind events).

(** The response of a file handler, from what it finds: no file, or the
    outcome of its [try] block. *)
Definition media_response (missing instruction : string)
    (model : GenerativeModel) (req : Request) (d : gmap string Inode)
  : Response :=
  match file req with
  | None => mkResponse 400 (Plain missing)
  | Some f => reply (media_outcome instruction model f d)
  end.

(** The two handlers that read the upload themselves. *)
Definition file_handlers : list (GenerativeModel -> Request -> M unit) :=
  [generate_from_document; generate_from_audio].

(** ** Sample requests, disks and providers *)

(** A sample upload: a small PDF stored under [uploads/]. *)
Definition pdf_file : UploadedFile :=
  {| path := "uploads/3f2a9c"; mimetype := "application/pdf"; size := 8 |}.
Definition pdf_bytes : list Byte.byte := list_byte_of_string "%PDF-1.4".
Definition pdf_disk : gmap string Inode :=
  {[ "uploads/3f2a9c" := mkInode pdf_bytes true true ]}.

(** Another one: the first bytes of a PNG image. *)
Definition png_file : UploadedFile :=
  {| path := "uploads/b81d07"; mimetype := "image/png"; size := 4 |}.
Definition png_bytes : list Byte.byte := [Byte.x89; Byte.x50; Byte.x4e; Byte.x47].
Definition png_disk : gmap string Inode :=
  {[ "uploads/b81d07" := mkInode png_bytes true true ]}.

(** And the header of a WAV recording. *)
Definition wav_file : UploadedFile :=
  {| path := "uploads/77c0e4"; mimetype := "audio/wav"; size := 4 |}.
Definition wav_bytes : list Byte.byte := list_byte_of_string "RIFF".
Definition wav_disk : gmap string Inode :=
  {[ "uploads/77c0e4" := mkInode wav_bytes true true ]}.

Definition upload_request (f : UploadedFile) : Request :=
  {| body := VObj []; file := Some f |}.

(** A provider that answers every input with the same text, and one
    that rejects every input with the same error. *)
Definition answering (t : string) : GenerativeModel :=
  {| generateContent _ := Returned {| response := {| text := Returned t |} |} |}.
Definition rejecting (e : JsError) : GenerativeModel :=
  {| generateContent _ := Threw e |}.

(** A provider that echoes a string prompt and rejects any other input. *)
Definition echo_model : GenerativeModel :=
  {| generateContent input :=
       match input with
       | VStr s => Returned {| response := {| text := Returned ("echo: " ++ s) |} |}
       | _ => Threw (mkError "Error"
                "[GoogleGenerativeAI Error]: unsupported input")
       end |}.

(** * Properties *)

(** ** The monad and the runtime *)

Example truthy_values :
  map truthy
    [VUndefined; VNull; VBool false; VNum 0; VNum (-0); VNum nan; VStr "";
     VBool true; VNum 1.5; VStr "0"; VArr []; VObj []]
  = [false; false; false; false; false; false; false;
     true; true; true; true; true].
Proof. reflexivity. Qed.

Lemma get_prop_defined v key w :
  nullish v = false -> get_prop v key w = (Returned (own_prop v key), w).
Proof. by destruct v. Qed.

Lemma destructure_prop_defined v key source w :
  nullish v = false ->
  destructure_prop v key source w = (Returned (own_prop v key), w).
Proof. by destruct v. Qed.

Lemma get_prop_nullish v key w :
  nullish v = true -> exists e, get_prop v key w = (Threw e, w).
Proof. destruct v; try done; eexists; reflexivity. Qed.

(** [Buffer.toString("base64")] on the test vectors of RFC 4648. *)
Example base64_rfc4648 :
  map (fun s => base64 (list_byte_of_string s))
    [""; "f"; "fo"; "foo"; "foob"; "fooba"; "foobar"]
  = [""; "Zg=="; "Zm8="; "Zm9v"; "Zm9vYg=="; "Zm9vYmE="; "Zm9vYmFy"].
Proof. reflexivity. Qed.

(** Every group of three bytes, complete or not, gives four characters. *)
Lemma base64_length bytes :
  String.length (base64 bytes) = 4 * ((length bytes + 2) / 3).
Proof.
  assert (forall n bs, length bs < n ->
            String.length (base64 bs) = 4 * ((length bs + 2) / 3)) as Hall.
  { induction n as [|n IH]; intros bs Hlen; [lia|].
    destruct bs as [|a [|b [|c rest]]]; try reflexivity.
    cbn [base64 String.length length].
    rewrite IH by (cbn in Hlen; lia).
    replace (S (S (S (length rest))) + 2) with (length rest + 2 + 1 * 3) by lia.
    rewrite Nat.div_add by lia. lia. }
  apply (Hall (S (length bytes))). lia.
Qed.

(** The three lines of every [try] block that talk to the model behave as
    [inference] says, and record one [Generate] event. *)
Lemma generate_then {A} model input (k : string -> M A) w :
  (let! result := model_generateContent model input in
   let response := response result in
   let! output := response_text response in
   k output) w
  = match inference model input with
    | Returned t => k t (log (Generate input) w)
    | Threw e => (Threw e, log (Generate input) w)
    end.
Proof.
  unfold bind, model_generateContent, response_text, inference.
  destruct (generateContent model input) as [result|e]; [|done].
  by destruct (text (response result)).
Qed.

(** ** The text handler *)

Lemma generate_text_run model req d :
  nullish (body req) = false ->
  run (generate_text model req) d
  = (Returned tt,
     {| disk := d;
        sent := Some (reply (inference model (own_prop (body req) "prompt")));
        trace := [Generate (own_prop (body req) "prompt")] |}).
Proof.
  intros Hbody. unfold run, generate_text. unfold bind at 1.
  rewrite (destructure_prop_defined _ _ _ _ Hbody).
  unfold try_catch. rewrite generate_then.
  by destruct (inference model _).
Qed.

(** C5.  A request to [/generate-text] whose body carries a string
    prompt, answered by the provider with the text [t], gets status 200
    and the JSON body [{output: t}], with [t] exactly the provider's
    text. *)
Theorem generate_text_success model req d prompt t :
  own_prop (body req) "prompt" = VStr prompt ->
  inference model (VStr prompt) = Returned t ->
  fst (run (generate_text model req) d) = Returned tt /\
  sent (snd (run (generate_text model req) d))
  = Some (mkResponse 200 (Json (VObj [("output", VStr t)]))).
Proof.
  intros Hprompt Hmodel.
  assert (nullish (body req) = false) as Hbody by (by destruct (body req)).
  rewrite (generate_text_run _ _ _ Hbody), Hprompt, Hmodel. done.
Qed.

Lemma generate_text_success_witness :
  sent (snd (run (generate_text echo_model
                    (mkRequest (VObj [("prompt", VStr "hi")]) None)) ∅))
  = Some (mkResponse 200 (Json (VObj [("output", VStr "echo: hi")]))).
Proof.
  apply (generate_text_success echo_model
           (mkRequest (VObj [("prompt", VStr "hi")]) None) ∅ "hi" "echo: hi");
    reflexivity.
Defined.

(** C9.  The text handler does not validate the prompt.  For every
    parsed JSON body, also one without a [prompt] field, it makes exactly
    one provider call, with the value of [body.prompt] (possibly
    [undefined]) unchanged, and answers 200 [{output}] when the provider
    succeeds and 500 [{error: message}] when it fails; it never answers
    400. *)
Theorem generate_text_no_validation model req d :
  nullish (body req) = false ->
  let prompt := own_prop (body req) "prompt" in
  let w := snd (run (generate_text model req) d) in
  trace w = [Generate prompt] /\
  match inference model prompt with
  | Returned t =>
      sent w = Some (mkResponse 200 (Json (VObj [("output", VStr t)])))
  | Threw e =>
      sent w = Some (mkResponse 500 (Json (VObj [("error", VStr (message e))])))
  end /\
  (forall r, sent w = Some r -> status r <> 400%N).
Proof.
  intros Hbody prompt w. subst prompt w.
  rewrite (generate_text_run _ _ _ Hbody). cbn [snd trace sent].
  split; [done|]. split.
  - by destruct (inference model _).
  - intros r [= <-]. by destruct (inference model _).
Qed.

Lemma generate_text_no_validation_witness :
  let w := snd (run (generate_text echo_model (mkRequest (VObj []) None)) ∅) in
  trace w = [Generate VUndefined] /\
  sent w = Some (mkResponse 500 (Json (VObj [("error",
             VStr "[GoogleGenerativeAI Error]: unsupported input")]))) /\
  (forall r, sent w = Some r -> status r <> 400%N).
Proof.
  apply (generate_text_no_validation echo_model (mkRequest (VObj []) None) ∅).
  reflexivity.
Defined.

(** ** The [finally] block *)

Lemma cleanup_run f p w :
  cleanup (Some f) p w
  = match disk w !! p with
    | None => (Returned tt, log (FsExists p) w)
    | Some i =>
        (if removable i then Returned tt else Threw (EPERM "unlink" p),
         {| disk := if removable i then delete p (disk w) else disk w;
            sent := sent w;
            trace := trace w ++ [FsExists p; FsUnlink p] |})
    end.
Proof.
  unfold cleanup, bind, fs.existsSync, fs.unlinkSync, log. cbn [disk sent trace].
  destruct (disk w !! p) as [i|] eqn:Hlookup.
  - rewrite bool_decide_eq_true_2 by eauto. cbn [disk]. rewrite Hlookup.
    destruct (removable i); cbn; by rewrite <- app_assoc.
  - rewrite bool_decide_eq_false_2 by (intros [? [=]]). done.
Qed.

Lemma cleanup_sent file p w : sent (snd (cleanup file p w)) = sent w.
Proof.
  destruct file as [f|]; [|done]. rewrite cleanup_run.
  by destruct (disk w !! p) as [i|].
Qed.

(** ** The document and audio handlers *)

Lemma generate_from_document_eq :
  generate_from_document
  = media_handler "No document file uploaded." "Analyze this document:"
      "Error processing document:".
Proof. reflexivity. Qed.

Lemma generate_from_audio_eq :
  generate_from_audio
  = media_handler "No audio file uploaded."
      "Transcribe or analyze the following audio:" "Error processing audio:".
Proof. reflexivity. Qed.

Section MediaHandler.

Context (missing instruction label : string) (model : GenerativeModel).

(** The [try]/[catch] part answers with [reply] of the outcome and never
    throws. *)
Lemma media_try_catch f d :
  try_catch
    (let! buffer := fs.readFileSync (path f) in
     let! result :=
       model_generateContent model
         (VArr [Text instruction; InlineMedia (base64 buffer) (mimetype f)]) in
     let response := response result in
     let! output := response_text response in
     res.json (VObj [("output", VStr output)]))
    (fun error =>
       let! _ := console.error label error in
       res.status_json 500 (VObj [("error", VStr (message error))]))
    (init d)
  = (Returned tt,
     {| disk := d;
        sent := Some (reply (media_outcome instruction model f d));
        trace := media_events instruction label model f d |}).
Proof.
  unfold try_catch, media_events, media_outcome, media_input.
  unfold bind at 1. unfold fs.readFileSync. cbn [disk init].
  destruct (read_file d (path f)) as [bytes|e]; [|done].
  rewrite generate_then.
  by destruct (inference model _).
Qed.

(** The complete run of a file handler on a request with a file. *)
Lemma media_handler_run req f d :
  file req = Some f ->
  run (media_handler missing instruction label model req) d
  = match d !! path f with
    | None =>
        (Returned tt,
         {| disk := d;
            sent := Some (reply (media_outcome instruction model f d));
            trace := media_events instruction label model f d
                     ++ [FsExists (path f)] |})
    | Some i =>
        (if removable i then Returned tt else Threw (EPERM "unlink" (path f)),
         {| disk := if removable i then delete (path f) d else d;
            sent := Some (reply (media_outcome instruction model f d));
            trace := media_events instruction label model f d
                     ++ [FsExists (path f); FsUnlink (path f)] |})
    end.
Proof.
  intros Hfile. unfold run, media_handler. rewrite Hfile.
  unfold try_finally. rewrite media_try_catch, cleanup_run. cbn [disk sent trace].
  destruct (d !! path f) as [i|]; [|done].
  by destruct (removable i).
Qed.

Lemma media_handler_no_file req d :
  file req = None ->
  run (media_handler missing instruction label model req) d
  = (Returned tt,
     {| disk := d; sent := Some (mkResponse 400 (Plain missing)); trace := [] |}).
Proof. intros Hfile. unfold run, media_handler. by rewrite Hfile. Qed.

(** Both handlers on a readable, removable upload: the response is
    [reply] of the inference outcome and the file is gone. *)
Lemma media_handler_readable req f d i :
  file req = Some f ->
  d !! path f = Some i ->
  readable i = true ->
  removable i = true ->
  run (media_handler missing instruction label model req) d
  = (Returned tt,
     {| disk := delete (path f) d;
        sent := Some (reply (inference model
                               (media_input instruction f (data i))));
        trace := FsRead (path f)
                 :: Generate (media_input instruction f (data i))
                 :: match inference model (media_input instruction f (data i)) with
                    | Returned _ => []
                    | Threw e => [ConsoleError label e]
                    end
                 ++ [FsExists (path f); FsUnlink (path f)] |}).
Proof.
  intros Hfile Hlookup Hreadable Hremovable.
  rewrite (media_handler_run _ f _ Hfile).
  unfold media_events, media_outcome, read_file.
  by rewrite Hlookup, Hreadable, Hremovable.
Qed.

(** The document and audio handlers read the file inside [try]: the
    error of the read is answered with 500 [{error: message}]. *)
Lemma media_handler_unreadable req f d e :
  file req = Some f ->
  read_file d (path f) = Threw e ->
  fst (run (media_handler missing instruction label model req) d)
  = match d !! path f with
    | Some i => if removable i then Returned tt
                else Threw (EPERM "unlink" (path f))
    | None => Returned tt
    end /\
  sent (snd (run (media_handler missing instruction label model req) d))
  = Some (mkResponse 500 (Json (VObj [("error", VStr (message e))]))).
Proof.
  intros Hfile Hread. rewrite (media_handler_run _ f _ Hfile).
  unfold media_outcome. rewrite Hread.
  by destruct (d !! path f) as [i|].
Qed.

End MediaHandler.

(** ** The image handler *)

(** The request reaches the model only when [fileToGenerativePart] is
    bound and returns; the handler then behaves as the other two. *)
Lemma generate_from_image_run binding model req f d :
  nullish (body req) = false ->
  file req = Some f ->
  run (generate_from_image binding model req) d
  = match binding with
    | None =>
        (Threw (mkError "ReferenceError" "fileToGenerativePart is not defined"),
         init d)
    | Some helper =>
        match helper (path f) (mimetype f) d with
        | Threw e => (Threw e, init d)
        | Returned image =>
            let input := VArr [image_prompt req; image] in
            let outcome := inference model input in
            let events :=
              Generate input
              :: match outcome with
                 | Returned _ => []
                 | Threw e => [ConsoleError "Error processing image:" e]
                 end in
            match d !! path f with
            | None =>
                (Returned tt,
                 {| disk := d; sent := Some (reply outcome);
                    trace := events ++ [FsExists (path f)] |})
            | Some i =>
                (if removable i then Returned tt
                 else Threw (EPERM "unlink" (path f)),
                 {| disk := if removable i then delete (path f) d else d;
                    sent := Some (reply outcome);
                    trace := events ++ [FsExists (path f); FsUnlink (path f)] |})
            end
        end
    end.
Proof.
  intros Hbody Hfile. unfold run, generate_from_image. unfold bind at 1.
  rewrite (get_prop_defined _ _ _ Hbody). rewrite Hfile.
  unfold bind at 1. destruct binding as [helper|]; [|done].
  cbn [call_fileToGenerativePart init disk].
  destruct (helper (path f) (mimetype f) d) as [image|e]; [|done].
  unfold try_finally, try_catch. rewrite generate_then.
  fold (image_prompt req). cbn zeta.
  destruct (inference model _) as [t|e]; cbn -[cleanup];
    rewrite cleanup_run; cbn [disk sent trace];
    destruct (d !! path f) as [i|]; try done;
    by destruct (removable i).
Qed.

Lemma generate_from_image_no_file binding model req d :
  nullish (body req) = false ->
  file req = None ->
  run (generate_from_image binding model req) d
  = (Returned tt,
     {| disk := d;
        sent := Some (mkResponse 400 (Plain "No image file uploaded."));
        trace := [] |}).
Proof.
  intros Hbody Hfile. unfold run, generate_from_image. unfold bind at 1.
  rewrite (get_prop_defined _ _ _ Hbody). by rewrite Hfile.
Qed.

(** C2.  On every [/generate-from-image] request that carries a file the
    handler calls [fileToGenerativePart], which the program binds
    nowhere: the call throws before the [try] statement is entered.  The
    handler completes abruptly with no response written (neither the 200
    nor the 500), no model call, and the [finally] block not run: no
    [fs] call is made and the disk is as it was. *)
Theorem image_handler_faults model req f d :
  file req = Some f ->
  exists e,
    run (generate_from_image fileToGenerativePart model req) d
    = (Threw e, {| disk := d; sent := None; trace := [] |}) /\
    (nullish (body req) = false ->
     e = mkError "ReferenceError" "fileToGenerativePart is not defined").
Proof.
  intros Hfile. destruct (nullish (body req)) eqn:Hbody.
  - destruct (get_prop_nullish (body req) "prompt" (init d) Hbody) as [e He].
    exists e. split; [|done].
    unfold run, generate_from_image. unfold bind at 1. by rewrite He.
  - eexists. split; [|done].
    by rewrite (generate_from_image_run _ _ _ f _ Hbody Hfile).
Qed.

Lemma image_handler_faults_witness :
  exists e,
    run (generate_from_image fileToGenerativePart (answering "A cat.")
           (upload_request png_file)) png_disk
    = (Threw e, {| disk := png_disk; sent := None; trace := [] |}) /\
    (nullish (body (upload_request png_file)) = false ->
     e = mkError "ReferenceError" "fileToGenerativePart is not defined").
Proof.
  apply (image_handler_faults (answering "A cat.") (upload_request png_file)
           png_file png_disk).
  reflexivity.
Defined.




(** *** The default prompt *)

Lemma assoc_absent key fields :
  key ∉ fields.*1 -> assoc key fields = VUndefined.
Proof.
  induction fields as [|[k v] rest IH]; [done|]. cbn. intros Hnotin.
  apply not_elem_of_cons in Hnotin as [Hne Hrest].
  destruct (String.eqb_spec key k); [done|]. by apply IH.
Qed.

Lemma image_prompt_default req :
  truthy (own_prop (body req) "prompt") = false ->
  image_prompt req = VStr "Describe the image".
Proof. intros Hfalsy. unfold image_prompt, js_or. by rewrite Hfalsy. Qed.

(** Whatever [fileToGenerativePart] is bound to, a model call of the
    image handler has the prompt of line 37 as its first part. *)
Lemma image_generate_input binding model req d input :
  nullish (body req) = false ->
  Generate input ∈ trace (snd (run (generate_from_image binding model req) d)) ->
  exists image, input = VArr [image_prompt req; image].
Proof.
  intros Hbody. destruct (file req) as [f|] eqn:Hfile.
  - rewrite (generate_from_image_run _ _ _ f _ Hbody Hfile).
    destruct binding as [helper|]; cbn; [|by intros ?%elem_of_nil].
    destruct (helper _ _ _) as [image|e]; cbn; [|by intros ?%elem_of_nil].
    intros Hin. exists image.
    destruct (d !! path f) as [i|]; cbn in Hin;
      destruct (inference model _); cbn in Hin;
      repeat (apply elem_of_cons in Hin as [Hin|Hin]; [congruence|]);
      by apply elem_of_nil in Hin.
  - rewrite (generate_from_image_no_file _ _ _ _ Hbody Hfile).
    by intros ?%elem_of_nil.
Qed.

(** Once the helper is bound and returns a part, the call is made. *)
Lemma image_generate_called helper model req f d image :
  nullish (body req) = false ->
  file req = Some f ->
  helper (path f) (mimetype f) d = Returned image ->
  Generate (VArr [image_prompt req; image])
  ∈ trace (snd (run (generate_from_image (Some helper) model req) d)).
Proof.
  intros Hbody Hfile Hhelper.
  rewrite (generate_from_image_run _ _ _ f _ Hbody Hfile), Hhelper.
  destruct (d !! path f) as [i|]; cbn; apply list_elem_of_here.
Qed.

(** C7.  In the image handler, when the form carries no [prompt] field,
    the instruction part of every input passed to the model is the
    literal "Describe the image": this holds whatever
    [fileToGenerativePart] is bound to, and the call is made as soon as
    that helper returns a part. *)
Theorem image_prompt_omitted binding model req d fields :
  body req = VObj fields ->
  "prompt" ∉ fields.*1 ->
  image_prompt req = VStr "Describe the image" /\
  (forall input,
     Generate input
     ∈ trace (snd (run (generate_from_image binding model req) d)) ->
     exists image, input = VArr [Text "Describe the image"; image]) /\
  (forall helper f image,
     binding = Some helper -> file req = Some f ->
     helper (path f) (mimetype f) d = Returned image ->
     Generate (VArr [Text "Describe the image"; image])
     ∈ trace (snd (run (generate_from_image binding model req) d))).
Proof.
  intros Hobj Habsent.
  assert (nullish (body req) = false) as Hbody by (by rewrite Hobj).
  assert (image_prompt req = VStr "Describe the image") as Hprompt.
  { apply image_prompt_default. rewrite Hobj. cbn.
    by rewrite (assoc_absent _ _ Habsent). }
  split; [done|]. split.
  - intros input Hin. unfold Text. rewrite <- Hprompt.
    by apply (image_generate_input binding model req d).
  - intros helper f image -> Hfile Hhelper. unfold Text. rewrite <- Hprompt.
    by apply (image_generate_called helper model req f).
Qed.

Lemma image_prompt_omitted_witness :
  Generate (VArr [Text "Describe the image";
                  InlineMedia "iVBORw==" "image/png"])
  ∈ trace (snd (run (generate_from_image (Some encode) (answering "A cat.")
                       (upload_request png_file)) png_disk)).
Proof.
  pose proof (image_prompt_omitted (Some encode) (answering "A cat.")
                (upload_request png_file) png_disk [] eq_refl) as Hclaim.
  destruct Hclaim as (_ & _ & Hcalled).
  - apply not_elem_of_nil.
  - apply (Hcalled encode png_file); reflexivity.
Defined.

(** C10.  The default also replaces a [prompt] field that is present and
    empty: the empty string is falsy, and for every falsy value of
    [req.body.prompt] the instruction part of every input passed to the
    model is "Describe the image". *)
Theorem image_prompt_falsy binding model req d :
  nullish (body req) = false ->
  truthy (own_prop (body req) "prompt") = false ->
  truthy (VStr "") = false /\
  image_prompt req = VStr "Describe the image" /\
  (forall input,
     Generate input
     ∈ trace (snd (run (generate_from_image binding model req) d)) ->
     exists image, input = VArr [Text "Describe the image"; image]) /\
  (forall helper f image,
     binding = Some helper -> file req = Some f ->
     helper (path f) (mimetype f) d = Returned image ->
     Generate (VArr [Text "Describe the image"; image])
     ∈ trace (snd (run (generate_from_image binding model req) d))).
Proof.
  intros Hbody Hfalsy.
  pose proof (image_prompt_default req Hfalsy) as Hprompt.
  split; [done|]. split; [done|]. split.
  - intros input Hin. unfold Text. rewrite <- Hprompt.
    by apply (image_generate_input binding model req d).
  - intros helper f image -> Hfile Hhelper. unfold Text. rewrite <- Hprompt.
    by apply (image_generate_called helper model req f).
Qed.

Lemma image_prompt_falsy_witness :
  Generate (VArr [Text "Describe the image";
                  InlineMedia "iVBORw==" "image/png"])
  ∈ trace (snd (run (generate_from_image (Some encode) (answering "A cat.")
                       {| body := VObj [("prompt", VStr "")];
                          file := Some png_file |}) png_disk)).
Proof.
  pose proof (image_prompt_falsy (Some encode) (answering "A cat.")
                {| body := VObj [("prompt", VStr "")]; file := Some png_file |}
                png_disk eq_refl eq_refl) as (_ & _ & _ & Hcalled).
  apply (Hcalled encode png_file); reflexivity.
Defined.

(** ** The document scenario *)

(** C6.  A [/generate-from-document] request with a file: the handler
    reads the whole file, base64-encodes its bytes and submits exactly
    the two parts [Text "Analyze this document:"] and the inline blob
    with the mime type of the upload, in this order; when the provider
    answers with the text [t], the response is 200 [{output: t}] and the
    uploaded file is unlinked.  The events are, in order: one read, one
    model call, the existence test and the unlink. *)
Theorem document_scenario model req f d i t :
  file req = Some f ->
  d !! path f = Some i ->
  readable i = true ->
  removable i = true ->
  inference model
    (VArr [Text "Analyze this document:";
           InlineMedia (base64 (data i)) (mimetype f)]) = Returned t ->
  run (generate_from_document model req) d
  = (Returned tt,
     {| disk := delete (path f) d;
        sent := Some (mkResponse 200 (Json (VObj [("output", VStr t)])));
        trace := [FsRead (path f);
                  Generate (VArr [Text "Analyze this document:";
                                  InlineMedia (base64 (data i)) (mimetype f)]);
                  FsExists (path f);
                  FsUnlink (path f)] |}) /\
  delete (path f) d !! path f = None.
Proof.
  intros Hfile Hlookup Hreadable Hremovable Hmodel.
  split; [|apply lookup_delete_eq].
  rewrite generate_from_document_eq, (media_handler_run _ _ _ _ _ f _ Hfile).
  unfold media_events, media_outcome, media_input, read_file.
  by rewrite Hlookup, Hreadable, Hremovable, Hmodel.
Qed.

Lemma document_scenario_witness :
  run (generate_from_document (answering "Summary: ...")
         (upload_request pdf_file)) pdf_disk
  = (Returned tt,
     {| disk := delete "uploads/3f2a9c" pdf_disk;
        sent := Some (mkResponse 200
                        (Json (VObj [("output", VStr "Summary: ...")])));
        trace := [FsRead "uploads/3f2a9c";
                  Generate (VArr [Text "Analyze this document:";
                                  InlineMedia "JVBERi0xLjQ=" "application/pdf"]);
                  FsExists "uploads/3f2a9c";
                  FsUnlink "uploads/3f2a9c"] |}) /\
  delete "uploads/3f2a9c" pdf_disk !! "uploads/3f2a9c" = None.
Proof.
  apply (document_scenario (answering "Summary: ...") (upload_request pdf_file)
           pdf_file pdf_disk (mkInode pdf_bytes true true) "Summary: ...");
    reflexivity.
Defined.

(** ** Release of the temporary file *)

(** C8.  The release of the [finally] blocks.  (1) When the file is
    still at its path, release unlinks it: it is gone afterwards unless
    the unlink itself fails, and no other path is touched.  (2) When the
    file is already gone, release returns normally and changes nothing
    on disk.  (3) Release is idempotent: after a release that returned,
    a second one returns too and leaves the disk as the first left it.
    (4) A release never touches the response, whatever the unlink does:
    the response of a handler is the one its [try]/[catch] part wrote,
    also when the unlink throws. *)
Theorem release_idempotent_non_masking file p w :
  (forall f i, file = Some f -> disk w !! p = Some i ->
     cleanup file p w
     = (if removable i then Returned tt else Threw (EPERM "unlink" p),
        {| disk := if removable i then delete p (disk w) else disk w;
           sent := sent w;
           trace := trace w ++ [FsExists p; FsUnlink p] |}) /\
     (removable i = true -> disk (snd (cleanup file p w)) !! p = None) /\
     (forall q, q <> p ->
        disk (snd (cleanup file p w)) !! q = disk w !! q)) /\
  (disk w !! p = None ->
     fst (cleanup file p w) = Returned tt /\
     disk (snd (cleanup file p w)) = disk w) /\
  (forall w', cleanup file p w = (Returned tt, w') ->
     fst (cleanup file p w') = Returned tt /\
     disk (snd (cleanup file p w')) = disk w') /\
  sent (snd (cleanup file p w)) = sent w /\
  (forall block : M unit,
     sent (snd (try_finally block (cleanup file p) w)) = sent (snd (block w))).
Proof.
  split; [|split; [|split; [|split]]].
  - intros f i -> Hlookup. rewrite cleanup_run, Hlookup. cbn [snd disk].
    split; [done|]. split.
    + intros ->. apply lookup_delete_eq.
    + intros q Hne. destruct (removable i); [|done].
      by apply lookup_delete_ne.
  - intros Hlookup. destruct file as [f|]; [|done].
    by rewrite cleanup_run, Hlookup.
  - intros w' Hfirst. destruct file as [f|].
    + rewrite cleanup_run in Hfirst. rewrite cleanup_run.
      destruct (disk w !! p) as [i|] eqn:Hlookup.
      * destruct (removable i); [|done].
        injection Hfirst as <-. cbn [disk]. by rewrite lookup_delete_eq.
      * injection Hfirst as <-. cbn [disk log]. by rewrite Hlookup.
    + by injection Hfirst as <-.
  - apply cleanup_sent.
  - intros block. unfold try_finally.
    destruct (block w) as [r w1] eqn:Hblock.
    pose proof (cleanup_sent file p w1) as Hsent.
    destruct (cleanup file p w1) as [[[]|e] w2]; cbn in *; done.
Qed.

Lemma release_idempotent_non_masking_witness :
  disk (snd (cleanup (Some pdf_file) "uploads/3f2a9c" (init pdf_disk)))
  !! "uploads/3f2a9c" = None.
Proof.
  destruct (release_idempotent_non_masking (Some pdf_file) "uploads/3f2a9c"
              (init pdf_disk)) as (Hpresent & _).
  destruct (Hpresent pdf_file (mkInode pdf_bytes true true) eq_refl eq_refl)
    as (_ & Hgone & _).
  exact (Hgone eq_refl).
Defined.

(** A document whose temporary file cannot be unlinked: the handler
    completes abruptly with the error of [unlink], and the response
    written before is the 200 of the model's answer. *)
Example pinned_document_keeps_response :
  let d : gmap string Inode :=
    {[ "uploads/3f2a9c" := mkInode pdf_bytes true false ]} in
  let r := run (generate_from_document (answering "Summary: ...")
                  (upload_request pdf_file)) d in
  fst r = Threw (EPERM "unlink" "uploads/3f2a9c") /\
  sent (snd r)
  = Some (mkResponse 200 (Json (VObj [("output", VStr "Summary: ...")]))) /\
  disk (snd r) = d.
Proof. vm_compute. done. Qed.

(** ** Provider failure *)

(** C1 does not hold as stated: the error field of the 500 response is
    the message of the error as thrown, whatever it is.  On a document
    upload, a provider error with an empty message is answered with
    [{error: ""}]. *)
Lemma provider_error_empty_message :
  inference (rejecting (mkError "Error" ""))
    (media_input "Analyze this document:" pdf_file pdf_bytes)
  = Threw (mkError "Error" "") /\
  sent (snd (run (generate_from_document (rejecting (mkError "Error" ""))
                    (upload_request pdf_file)) pdf_disk))
  = Some (mkResponse 500 (Json (VObj [("error", VStr "")]))) /\
  ~ error_reply_nonempty
      (sent (snd (run (generate_from_document (rejecting (mkError "Error" ""))
                         (upload_request pdf_file)) pdf_disk))).
Proof.
  assert (sent (snd (run (generate_from_document (rejecting (mkError "Error" ""))
                            (upload_request pdf_file)) pdf_disk))
          = Some (mkResponse 500 (Json (VObj [("error", VStr "")])))) as Hsent
    by (vm_compute; done).
  split; [done|]. split; [done|].
  rewrite Hsent. intros (m & [= <-] & Hne). done.
Qed.

(** C1, as the code has it.  In the document and in the audio handler,
    on an upload that is read and that the file system lets be
    unlinked: when the provider call throws [e], the response is 500
    with the JSON body [{error: e.message}], the message as thrown (so
    non-empty whenever the provider's message is); and on both branches,
    provider success and provider failure, the uploaded file no longer
    exists when the handler completes. *)
Theorem provider_failure_reply_and_cleanup model req f d i :
  file req = Some f ->
  d !! path f = Some i ->
  readable i = true ->
  removable i = true ->
  let doc := snd (run (generate_from_document model req) d) in
  let audio := snd (run (generate_from_audio model req) d) in
  (forall e,
     inference model (media_input "Analyze this document:" f (data i))
     = Threw e ->
     sent doc
     = Some (mkResponse 500 (Json (VObj [("error", VStr (message e))]))) /\
     (message e <> "" -> error_reply_nonempty (sent doc))) /\
  (forall e,
     inference model
       (media_input "Transcribe or analyze the following audio:" f (data i))
     = Threw e ->
     sent audio
     = Some (mkResponse 500 (Json (VObj [("error", VStr (message e))]))) /\
     (message e <> "" -> error_reply_nonempty (sent audio))) /\
  disk doc !! path f = None /\
  disk audio !! path f = None.
Proof.
  intros Hfile Hlookup Hreadable Hremovable doc audio. subst doc audio.
  rewrite generate_from_document_eq, generate_from_audio_eq.
  rewrite !(media_handler_readable _ _ _ _ _ f d i Hfile Hlookup
              Hreadable Hremovable).
  cbn [snd sent disk].
  split; [|split; [|split]]; try apply lookup_delete_eq.
  - intros e ->. split; [done|]. intros Hne. by exists (message e).
  - intros e ->. split; [done|]. intros Hne. by exists (message e).
Qed.

Lemma provider_failure_reply_and_cleanup_witness :
  let quota := mkError "Error" "[GoogleGenerativeAI Error]: quota exceeded" in
  let doc := snd (run (generate_from_document (rejecting quota)
                         (upload_request pdf_file)) pdf_disk) in
  sent doc
  = Some (mkResponse 500
            (Json (VObj [("error",
                          VStr "[GoogleGenerativeAI Error]: quota exceeded")]))) /\
  disk doc !! "uploads/3f2a9c" = None.
Proof.
  intros quota doc.
  pose proof (provider_failure_reply_and_cleanup (rejecting quota)
                (upload_request pdf_file) pdf_file pdf_disk
                (mkInode pdf_bytes true true) eq_refl eq_refl eq_refl eq_refl)
    as (Hdoc & _ & Hgone & _).
  split; [|exact Hgone].
  exact (proj1 (Hdoc quota eq_refl)).
Defined.

(** ** An unreadable upload *)

(** C4, at a request whose temporary file is gone when the handler
    runs.  The image handler prepares the part before its [try]
    statement: with [fileToGenerativePart] unbound, and also with the
    encoder of the design bound to it, the handler completes abruptly
    and writes no response, where the document and the audio handler
    answer 500 with the message of the read error. *)
Theorem image_unreadable_no_response :
  let req := upload_request png_file in
  let model := answering "A cat." in
  read_file ∅ (path png_file) = Threw (ENOENT "open" "uploads/b81d07") /\
  run (generate_from_image fileToGenerativePart model req) ∅
  = (Threw (mkError "ReferenceError" "fileToGenerativePart is not defined"),
     {| disk := ∅; sent := None; trace := [] |}) /\
  run (generate_from_image (Some encode) model req) ∅
  = (Threw (ENOENT "open" "uploads/b81d07"),
     {| disk := ∅; sent := None; trace := [] |}) /\
  sent (snd (run (generate_from_document model req) ∅))
  = Some (mkResponse 500
            (Json (VObj [("error",
               VStr "ENOENT: no such file or directory, open 'uploads/b81d07'")]))) /\
  sent (snd (run (generate_from_audio model req) ∅))
  = Some (mkResponse 500
            (Json (VObj [("error",
               VStr "ENOENT: no such file or directory, open 'uploads/b81d07'")]))).
Proof.
  intros req model. subst req model.
  split; [done|].
  split; [by rewrite (generate_from_image_run _ _ _ png_file)|].
  split; [by rewrite (generate_from_image_run _ _ _ png_file)|].
  rewrite generate_from_document_eq, generate_from_audio_eq.
  split;
    by apply (media_handler_unreadable _ _ _ _ _ png_file ∅
                (ENOENT "open" "uploads/b81d07")).
Qed.

(** * Further properties of the handlers *)

(** ** The audio scenario *)

(** X1.  A [/generate-from-audio] request with a readable, removable
    upload and a provider that answers [t].  The calls the handler makes
    are, in this order: one read of the file, one model call with
    ["Transcribe or analyze the following audio:"] and the inline base64
    part carrying the mime type of the upload, the existence test of the
    path, and its unlink.  The handler returns, the response it has
    written is 200 [{output: t}], and the file is gone. *)
Theorem audio_scenario model req f d i t :
  file req = Some f ->
  d !! path f = Some i ->
  readable i = true ->
  removable i = true ->
  inference model
    (VArr [Text "Transcribe or analyze the following audio:";
           InlineMedia (base64 (data i)) (mimetype f)]) = Returned t ->
  run (generate_from_audio model req) d
  = (Returned tt,
     {| disk := delete (path f) d;
        sent := Some (mkResponse 200 (Json (VObj [("output", VStr t)])));
        trace := [FsRead (path f);
                  Generate (VArr [Text "Transcribe or analyze the following audio:";
                                  InlineMedia (base64 (data i)) (mimetype f)]);
                  FsExists (path f);
                  FsUnlink (path f)] |}).
Proof.
  intros Hfile Hlookup Hreadable Hremovable Hmodel.
  rewrite generate_from_audio_eq.
  rewrite (media_handler_readable _ _ _ _ _ f d i Hfile Hlookup
             Hreadable Hremovable).
  unfold media_input. by rewrite Hmodel.
Qed.

Lemma audio_scenario_witness :
  sent (snd (run (generate_from_audio (answering "Hello world.")
                    (upload_request wav_file)) wav_disk))
  = Some (mkResponse 200 (Json (VObj [("output", VStr "Hello world.")]))).
Proof.
  by rewrite (audio_scenario (answering "Hello world.")
                (upload_request wav_file) wav_file wav_disk
                (mkInode wav_bytes true true) "Hello world."
                eq_refl eq_refl eq_refl eq_refl eq_refl).
Defined.

(** ** A failed read *)

(** X2.  When the read of the upload fails in the document or in the
    audio handler, the model is not called: the error is logged once
    under the label of the handler and answered with 500 and its
    message; the [finally] block still tests the path, and unlinks only
    a file that is there. *)
Theorem read_failure_skips_model model req f d e :
  file req = Some f ->
  read_file d (path f) = Threw e ->
  let unlink :=
    match d !! path f with Some _ => [FsUnlink (path f)] | None => [] end in
  let doc := snd (run (generate_from_document model req) d) in
  let audio := snd (run (generate_from_audio model req) d) in
  trace doc
  = ([FsRead (path f); ConsoleError "Error processing document:" e;
      FsExists (path f)] ++ unlink)%list /\
  trace audio
  = ([FsRead (path f); ConsoleError "Error processing audio:" e;
      FsExists (path f)] ++ unlink)%list /\
  sent doc = Some (mkResponse 500 (Json (VObj [("error", VStr (message e))]))) /\
  sent audio = Some (mkResponse 500 (Json (VObj [("error", VStr (message e))]))).
Proof.
  intros Hfile Hread unlink doc audio. subst unlink doc audio.
  rewrite generate_from_document_eq, generate_from_audio_eq.
  rewrite !(media_handler_run _ _ _ _ _ f _ Hfile).
  unfold media_events, media_outcome. rewrite Hread.
  by destruct (d !! path f) as [i|].
Qed.

Lemma read_failure_skips_model_witness :
  trace (snd (run (generate_from_document (answering "Summary: ...")
                     (upload_request pdf_file))
                {[ "uploads/3f2a9c" := mkInode pdf_bytes false true ]}))
  = [FsRead "uploads/3f2a9c";
     ConsoleError "Error processing document:" (EACCES "open" "uploads/3f2a9c");
     FsExists "uploads/3f2a9c"; FsUnlink "uploads/3f2a9c"].
Proof.
  pose proof (read_failure_skips_model (answering "Summary: ...")
                (upload_request pdf_file) pdf_file
                {[ "uploads/3f2a9c" := mkInode pdf_bytes false true ]}
                (EACCES "open" "uploads/3f2a9c") eq_refl eq_refl)
    as (Hdoc & _).
  exact Hdoc.
Defined.

(** ** A body that is not an object *)

Lemma destructure_prop_nullish v key source w :
  nullish v = true ->
  exists e, name e = "TypeError" /\
            destructure_prop v key source w = (Threw e, w).
Proof. destruct v; try done; eexists; (split; [|reflexivity]); reflexivity. Qed.

Lemma get_prop_type_error v key w :
  nullish v = true ->
  exists e, name e = "TypeError" /\ get_prop v key w = (Threw e, w).
Proof. destruct v; try done; eexists; (split; [|reflexivity]); reflexivity. Qed.

(** X3.  The text and the image handler read [req.body.prompt] before
    their [try] statement and before the file test.  When [req.body] is
    [undefined] or [null], both complete abruptly with a [TypeError]: no
    response is written (not even the 400 of a missing file), the model
    is not called and the disk is not touched. *)
Theorem nullish_body_throws binding model req d :
  nullish (body req) = true ->
  exists e_text e_image,
    name e_text = "TypeError" /\ name e_image = "TypeError" /\
    run (generate_text model req) d
    = (Threw e_text, {| disk := d; sent := None; trace := [] |}) /\
    run (generate_from_image binding model req) d
    = (Threw e_image, {| disk := d; sent := None; trace := [] |}).
Proof.
  intros Hbody.
  destruct (destructure_prop_nullish (body req) "prompt" "req.body" (init d)
              Hbody) as (e1 & Hname1 & Hrun1).
  destruct (get_prop_type_error (body req) "prompt" (init d) Hbody)
    as (e2 & Hname2 & Hrun2).
  exists e1, e2. split; [done|]. split; [done|]. split.
  - unfold run, generate_text. unfold bind at 1. by rewrite Hrun1.
  - unfold run, generate_from_image. unfold bind at 1. by rewrite Hrun2.
Qed.

Lemma nullish_body_throws_witness :
  exists e_text e_image,
    name e_text = "TypeError" /\ name e_image = "TypeError" /\
    run (generate_text (answering "Hi.") (mkRequest VUndefined None)) ∅
    = (Threw e_text, {| disk := ∅; sent := None; trace := [] |}) /\
    run (generate_from_image fileToGenerativePart (answering "Hi.")
           (mkRequest VUndefined None)) ∅
    = (Threw e_image, {| disk := ∅; sent := None; trace := [] |}).
Proof.
  apply (nullish_body_throws fileToGenerativePart (answering "Hi.")
           (mkRequest VUndefined None) ∅).
  reflexivity.
Defined.

(** ** A custom prompt *)

(** X4.  A truthy [prompt] field (a non-empty string, in a form) is
    used as it is: it is the first part of every input the image
    handler passes to the model, whatever [fileToGenerativePart] is
    bound to, and the default is not used. *)
Theorem image_prompt_custom binding model req d :
  nullish (body req) = false ->
  truthy (own_prop (body req) "prompt") = true ->
  image_prompt req = own_prop (body req) "prompt" /\
  (forall input,
     Generate input
     ∈ trace (snd (run (generate_from_image binding model req) d)) ->
     exists image, input = VArr [own_prop (body req) "prompt"; image]) /\
  (forall helper f image,
     binding = Some helper -> file req = Some f ->
     helper (path f) (mimetype f) d = Returned image ->
     Generate (VArr [own_prop (body req) "prompt"; image])
     ∈ trace (snd (run (generate_from_image binding model req) d))).
Proof.
  intros Hbody Htruthy.
  assert (image_prompt req = own_prop (body req) "prompt") as Hprompt
    by (unfold image_prompt, js_or; by rewrite Htruthy).
  split; [done|]. split.
  - intros input Hin. rewrite <- Hprompt.
    by apply (image_generate_input binding model req d).
  - intros helper f image -> Hfile Hhelper. rewrite <- Hprompt.
    by apply (image_generate_called helper model req f).
Qed.

Lemma image_prompt_custom_witness :
  Generate (VArr [VStr "What breed is this dog?";
                  InlineMedia "iVBORw==" "image/png"])
  ∈ trace (snd (run (generate_from_image (Some encode) (answering "A corgi.")
                       {| body := VObj [("prompt", VStr "What breed is this dog?")];
                          file := Some png_file |}) png_disk)).
Proof.
  pose proof (image_prompt_custom (Some encode) (answering "A corgi.")
                {| body := VObj [("prompt", VStr "What breed is this dog?")];
                   file := Some png_file |}
                png_disk eq_refl eq_refl) as (_ & _ & Hcalled).
  apply (Hcalled encode png_file); reflexivity.
Defined.

(** ** What the handlers leave alone *)

Lemma generate_text_disk model req d :
  disk (snd (run (generate_text model req) d)) = d.
Proof.
  destruct (nullish (body req)) eqn:Hbody.
  - destruct (destructure_prop_nullish (body req) "prompt" "req.body" (init d)
                Hbody) as (e & _ & Hrun).
    unfold run, generate_text. unfold bind at 1. by rewrite Hrun.
  - by rewrite (generate_text_run _ _ _ Hbody).
Qed.

Lemma media_handler_frame missing instruction label model req d q :
  (forall f, file req = Some f -> q <> path f) ->
  disk (snd (run (media_handler missing instruction label model req) d)) !! q
  = d !! q.
Proof.
  intros Hother. destruct (file req) as [f|] eqn:Hfile.
  - rewrite (media_handler_run _ _ _ _ _ f _ Hfile).
    destruct (d !! path f) as [i|]; [|done]. cbn [snd disk].
    destruct (removable i); [|done].
    apply lookup_delete_ne. intros Heq. by apply (Hother f).
  - by rewrite (media_handler_no_file _ _ _ _ _ _ Hfile).
Qed.

Lemma generate_from_image_frame binding model req d q :
  (forall f, file req = Some f -> q <> path f) ->
  disk (snd (run (generate_from_image binding model req) d)) !! q = d !! q.
Proof.
  intros Hother. destruct (nullish (body req)) eqn:Hbody.
  { destruct (get_prop_type_error (body req) "prompt" (init d) Hbody)
      as (e & _ & Hrun).
    unfold run, generate_from_image. unfold bind at 1. by rewrite Hrun. }
  destruct (file req) as [f|] eqn:Hfile.
  - rewrite (generate_from_image_run _ _ _ f _ Hbody Hfile).
    destruct binding as [helper|]; [|done].
    destruct (helper _ _ _) as [image|e]; [|done]. cbn zeta.
    destruct (d !! path f) as [i|]; [|done]. cbn [snd disk].
    destruct (removable i); [|done].
    apply lookup_delete_ne. intros Heq. by apply (Hother f).
  - by rewrite (generate_from_image_no_file _ _ _ _ Hbody Hfile).
Qed.

(** X5.  No handler touches a file other than the upload of its own
    request: the text handler leaves the whole disk as it was, and after
    the image, document or audio handler every path other than
    [req.file.path] holds what it held before (every path, when the
    request has no file). *)
Theorem handlers_touch_only_upload binding model req d q :
  (forall f, file req = Some f -> q <> path f) ->
  disk (snd (run (generate_text model req) d)) = d /\
  disk (snd (run (generate_from_image binding model req) d)) !! q = d !! q /\
  disk (snd (run (generate_from_document model req) d)) !! q = d !! q /\
  disk (snd (run (generate_from_audio model req) d)) !! q = d !! q.
Proof.
  intros Hother. split; [apply generate_text_disk|].
  split; [by apply generate_from_image_frame|].
  rewrite generate_from_document_eq, generate_from_audio_eq.
  split; by apply media_handler_frame.
Qed.

Lemma handlers_touch_only_upload_witness :
  disk (snd (run (generate_from_audio (answering "Hello world.")
                    (upload_request wav_file))
               (<[ "uploads/3f2a9c" := mkInode pdf_bytes true true ]> wav_disk)))
  !! "uploads/3f2a9c"
  = Some (mkInode pdf_bytes true true).
Proof.
  pose proof (handlers_touch_only_upload fileToGenerativePart
                (answering "Hello world.") (upload_request wav_file)
                (<[ "uploads/3f2a9c" := mkInode pdf_bytes true true ]> wav_disk)
                "uploads/3f2a9c") as Hframe.
  destruct Hframe as (_ & _ & _ & Haudio).
  - intros f [= <-]. done.
  - rewrite Haudio. reflexivity.
Defined.

(** ** The response of the document and audio handlers *)

Lemma media_handler_sent missing instruction label model req d :
  sent (snd (run (media_handler missing instruction label model req) d))
  = Some (media_response missing instruction model req d).
Proof.
  unfold media_response. destruct (file req) as [f|] eqn:Hfile.
  - rewrite (media_handler_run _ _ _ _ _ f _ Hfile).
    by destruct (d !! path f) as [i|].
  - by rewrite (media_handler_no_file _ _ _ _ _ _ Hfile).
Qed.

(** X6.  The document and the audio handler write exactly one response
    on every request and every disk: 400 with the plain string when
    there is no file, otherwise 200 [{output}] when the read and the
    model succeed and 500 [{error}] with the message of the first
    failure.  The response does not depend on whether the upload can be
    unlinked afterwards. *)
Theorem media_response_total model req d :
  sent (snd (run (generate_from_document model req) d))
  = Some (match file req with
          | None => mkResponse 400 (Plain "No document file uploaded.")
          | Some f =>
              match read_file d (path f) with
              | Returned bytes =>
                  reply (inference model
                           (media_input "Analyze this document:" f bytes))
              | Threw e => reply (Threw e)
              end
          end) /\
  sent (snd (run (generate_from_audio model req) d))
  = Some (match file req with
          | None => mkResponse 400 (Plain "No audio file uploaded.")
          | Some f =>
              match read_file d (path f) with
              | Returned bytes =>
                  reply (inference model
                           (media_input
                              "Transcribe or analyze the following audio:"
                              f bytes))
              | Threw e => reply (Threw e)
              end
          end).
Proof.
  rewrite generate_from_document_eq, generate_from_audio_eq.
  rewrite !media_handler_sent. unfold media_response, media_outcome.
  destruct (file req) as [f|]; [|done].
  by destruct (read_file d (path f)).
Qed.

(** X7.  The document and the audio handler complete abruptly in one
    case only: the upload is on disk and [fs.unlinkSync] on its path
    throws; the error of the handler is then the error of that unlink.
    In every other case (no file, a failed read, a failed model call)
    the handler returns.  A response has been written in either case. *)
Theorem media_handler_rejects_iff model req d e :
  (fst (run (generate_from_document model req) d) = Threw e <->
   exists f, file req = Some f /\ is_Some (d !! path f) /\
             fst (fs.unlinkSync (path f) (init d)) = Threw e) /\
  (fst (run (generate_from_audio model req) d) = Threw e <->
   exists f, file req = Some f /\ is_Some (d !! path f) /\
             fst (fs.unlinkSync (path f) (init d)) = Threw e) /\
  is_Some (sent (snd (run (generate_from_document model req) d))) /\
  is_Some (sent (snd (run (generate_from_audio model req) d))).
Proof.
  rewrite generate_from_document_eq, generate_from_audio_eq.
  assert (forall missing instruction label,
            fst (run (media_handler missing instruction label model req) d)
            = Threw e <->
            exists f, file req = Some f /\ is_Some (d !! path f) /\
                      fst (fs.unlinkSync (path f) (init d)) = Threw e)
    as Hany.
  { intros missing instruction label. unfold fs.unlinkSync. cbn [disk init].
    destruct (file req) as [f|] eqn:Hfile.
    - rewrite (media_handler_run _ _ _ _ _ f _ Hfile).
      destruct (d !! path f) as [i|] eqn:Hlookup; cbn [fst].
      + split.
        * intros Hthrow. exists f. rewrite Hlookup.
          split; [done|]. split; [by eexists|].
          by destruct (removable i).
        * intros (f' & [= <-] & _ & Hunlink). rewrite Hlookup in Hunlink.
          by destruct (removable i).
      + split; [done|]. intros (f' & [= <-] & Hsome & _).
        rewrite Hlookup in Hsome. by destruct Hsome.
    - rewrite (media_handler_no_file _ _ _ _ _ _ Hfile). cbn [fst].
      split; [done|]. by intros (f' & [=] & _). }
  split; [apply Hany|]. split; [apply Hany|].
  rewrite !media_handler_sent. split; by eexists.
Qed.

(** ** How often the model and the console are called *)

Lemma media_handler_counts missing instruction label model req d :
  let events :=
    trace (snd (run (media_handler missing instruction label model req) d)) in
  count is_generate events
  = match file req with
    | Some f =>
        match read_file d (path f) with Returned _ => 1 | Threw _ => 0 end
    | None => 0
    end /\
  count is_console events
  = match file req with
    | Some f =>
        match media_outcome instruction model f d with
        | Returned _ => 0
        | Threw _ => 1
        end
    | None => 0
    end.
Proof.
  cbn zeta. destruct (file req) as [f|] eqn:Hfile.
  - rewrite (media_handler_run _ _ _ _ _ f _ Hfile).
    unfold media_events, media_outcome.
    destruct (d !! path f) as [i|]; cbn [snd trace];
      destruct (read_file d (path f)) as [bytes|e]; try done;
      by destruct (inference model _).
  - by rewrite (media_handler_no_file _ _ _ _ _ _ Hfile).
Qed.

(** X8.  No handler calls the model twice: a failed call is not
    retried.  The text handler makes one call when [req.body] is an
    object and none otherwise; the document and audio handlers make one
    call when the upload was read and none otherwise; the image handler
    makes none, [fileToGenerativePart] being unbound. *)
Theorem model_called_at_most_once model req d :
  count is_generate (trace (snd (run (generate_text model req) d)))
  = (if nullish (body req) then 0 else 1) /\
  count is_generate
    (trace (snd (run (generate_from_image fileToGenerativePart model req) d)))
  = 0 /\
  count is_generate (trace (snd (run (generate_from_document model req) d)))
  = match file req with
    | Some f =>
        match read_file d (path f) with Returned _ => 1 | Threw _ => 0 end
    | None => 0
    end /\
  count is_generate (trace (snd (run (generate_from_audio model req) d)))
  = match file req with
    | Some f =>
        match read_file d (path f) with Returned _ => 1 | Threw _ => 0 end
    | None => 0
    end.
Proof.
  split; [|split].
  - destruct (nullish (body req)) eqn:Hbody.
    + destruct (destructure_prop_nullish (body req) "prompt" "req.body"
                  (init d) Hbody) as (e & _ & Hrun).
      unfold run, generate_text. unfold bind at 1. by rewrite Hrun.
    + by rewrite (generate_text_run _ _ _ Hbody).
  - destruct (nullish (body req)) eqn:Hbody.
    + destruct (get_prop_type_error (body req) "prompt" (init d) Hbody)
        as (e & _ & Hrun).
      unfold run, generate_from_image. unfold bind at 1. by rewrite Hrun.
    + destruct (file req) as [f|] eqn:Hfile.
      * by rewrite (generate_from_image_run _ _ _ f _ Hbody Hfile).
      * by rewrite (generate_from_image_no_file _ _ _ _ Hbody Hfile).
  - rewrite generate_from_document_eq, generate_from_audio_eq.
    split; apply media_handler_counts.
Qed.

(** X9.  The document and the audio handler write one line to the
    console, under their own label, exactly when their [try] block
    throws (a failed read or a failed model call) and none otherwise;
    the text handler never writes to the console, also when the model
    fails. *)
Theorem errors_logged_once model req d :
  count is_console (trace (snd (run (generate_text model req) d))) = 0 /\
  count is_console (trace (snd (run (generate_from_document model req) d)))
  = match file req with
    | Some f =>
        match media_outcome "Analyze this document:" model f d with
        | Returned _ => 0
        | Threw _ => 1
        end
    | None => 0
    end /\
  count is_console (trace (snd (run (generate_from_audio model req) d)))
  = match file req with
    | Some f =>
        match media_outcome "Transcribe or analyze the following audio:"
                model f d with
        | Returned _ => 0
        | Threw _ => 1
        end
    | None => 0
    end /\
  (forall label e,
     ConsoleError label e
     ∈ trace (snd (run (generate_from_document model req) d)) ->
     label = "Error processing document:") /\
  (forall label e,
     ConsoleError label e
     ∈ trace (snd (run (generate_from_audio model req) d)) ->
     label = "Error processing audio:").
Proof.
  split.
  { destruct (nullish (body req)) eqn:Hbody.
    - destruct (destructure_prop_nullish (body req) "prompt" "req.body"
                  (init d) Hbody) as (e & _ & Hrun).
      unfold run, generate_text. unfold bind at 1. by rewrite Hrun.
    - by rewrite (generate_text_run _ _ _ Hbody). }
  rewrite generate_from_document_eq, generate_from_audio_eq.
  split; [apply media_handler_counts|]. split; [apply media_handler_counts|].
  assert (forall missing instruction label0 label e,
            ConsoleError label e
            ∈ trace (snd (run (media_handler missing instruction label0
                                 model req) d)) ->
            label = label0) as Hlabel; [|split; intros label e; apply Hlabel].
  intros missing instruction label0 label e.
  destruct (file req) as [f|] eqn:Hfile.
  - rewrite (media_handler_run _ _ _ _ _ f _ Hfile).
    unfold media_events, media_outcome.
    destruct (d !! path f) as [i|]; cbn [snd trace];
      destruct (read_file d (path f)) as [bytes|e0];
      try destruct (inference model _); cbn;
      intros Hin;
      repeat (apply elem_of_cons in Hin as [Hin|Hin]; [congruence|]);
      by apply elem_of_nil in Hin.
  - rewrite (media_handler_no_file _ _ _ _ _ _ Hfile).
    by intros ?%elem_of_nil.
Qed.

(** ** One request after another *)

(** A file handler sees the disk only at the path of its upload. *)
Lemma media_handler_local missing instruction label model req f d1 d2 :
  file req = Some f ->
  d1 !! path f = d2 !! path f ->
  fst (run (media_handler missing instruction label model req) d1)
  = fst (run (media_handler missing instruction label model req) d2) /\
  sent (snd (run (media_handler missing instruction label model req) d1))
  = sent (snd (run (media_handler missing instruction label model req) d2)) /\
  trace (snd (run (media_handler missing instruction label model req) d1))
  = trace (snd (run (media_handler missing instruction label model req) d2)).
Proof.
  intros Hfile Hsame.
  rewrite !(media_handler_run _ _ _ _ _ f _ Hfile).
  unfold media_events, media_outcome, read_file. rewrite Hsame.
  by destruct (d2 !! path f) as [i|].
Qed.

(** X10.  The upload is consumed: once the document or the audio
    handler has run on an upload that could be unlinked, the same
    request run again finds no file, makes no model call and is answered
    with 500 and the ENOENT message of the read; this second run returns
    and leaves the disk as it found it. *)
Theorem replay_after_cleanup handler model req f d i :
  handler ∈ file_handlers ->
  file req = Some f ->
  d !! path f = Some i ->
  removable i = true ->
  let d' := disk (snd (run (handler model req) d)) in
  fst (run (handler model req) d') = Returned tt /\
  sent (snd (run (handler model req) d'))
  = Some (mkResponse 500
            (Json (VObj [("error", VStr (message (ENOENT "open" (path f))))]))) /\
  count is_generate (trace (snd (run (handler model req) d'))) = 0 /\
  disk (snd (run (handler model req) d')) = d'.
Proof.
  intros Hhandler Hfile Hlookup Hremovable.
  assert (forall missing instruction label,
            let h := media_handler missing instruction label in
            let d' := disk (snd (run (h model req) d)) in
            fst (run (h model req) d') = Returned tt /\
            sent (snd (run (h model req) d'))
            = Some (mkResponse 500
                      (Json (VObj [("error",
                         VStr (message (ENOENT "open" (path f))))]))) /\
            count is_generate (trace (snd (run (h model req) d'))) = 0 /\
            disk (snd (run (h model req) d')) = d') as Hany.
  { intros missing instruction label h d'. subst h d'.
    rewrite (media_handler_run _ _ _ _ _ f d Hfile), Hlookup, Hremovable.
    cbn [snd disk].
    rewrite (media_handler_run _ _ _ _ _ f _ Hfile).
    unfold media_events, media_outcome, read_file.
    by rewrite lookup_delete_eq. }
  unfold file_handlers in Hhandler.
  apply elem_of_cons in Hhandler as [->|Hhandler].
  { rewrite generate_from_document_eq. apply Hany. }
  apply elem_of_cons in Hhandler as [->|Hhandler].
  { rewrite generate_from_audio_eq. apply Hany. }
  by apply elem_of_nil in Hhandler.
Qed.

Lemma replay_after_cleanup_witness :
  let d' := disk (snd (run (generate_from_audio (answering "Hello world.")
                              (upload_request wav_file)) wav_disk)) in
  sent (snd (run (generate_from_audio (answering "Hello world.")
                    (upload_request wav_file)) d'))
  = Some (mkResponse 500
            (Json (VObj [("error",
               VStr "ENOENT: no such file or directory, open 'uploads/77c0e4'")]))).
Proof.
  intros d'.
  assert (generate_from_audio ∈ file_handlers) as Hhandler
    by (apply list_elem_of_further, list_elem_of_here).
  destruct (replay_after_cleanup generate_from_audio (answering "Hello world.")
              (upload_request wav_file) wav_file wav_disk
              (mkInode wav_bytes true true) Hhandler eq_refl eq_refl eq_refl)
    as (_ & Hsent & _).
  exact Hsent.
Defined.

(** X11.  Two uploads do not interfere.  When a document or audio
    request [reqA] has been handled, a second document or audio request
    [reqB] whose upload is stored under another path finds its file as
    it was, and completes, answers and calls out exactly as it would
    have on the disk before [reqA]. *)
Theorem uploads_isolated handlerA handlerB modelA modelB reqA reqB fA fB d :
  handlerA ∈ file_handlers ->
  handlerB ∈ file_handlers ->
  file reqA = Some fA ->
  file reqB = Some fB ->
  path fA <> path fB ->
  let dA := disk (snd (run (handlerA modelA reqA) d)) in
  dA !! path fB = d !! path fB /\
  fst (run (handlerB modelB reqB) dA) = fst (run (handlerB modelB reqB) d) /\
  sent (snd (run (handlerB modelB reqB) dA))
  = sent (snd (run (handlerB modelB reqB) d)) /\
  trace (snd (run (handlerB modelB reqB) dA))
  = trace (snd (run (handlerB modelB reqB) d)).
Proof.
  intros HA HB HfileA HfileB Hpaths dA.
  assert (dA !! path fB = d !! path fB) as Hframe.
  { subst dA. unfold file_handlers in HA.
    apply elem_of_cons in HA as [->|HA];
      [|apply elem_of_cons in HA as [->|HA];
        [|by apply elem_of_nil in HA]].
    - rewrite generate_from_document_eq. apply media_handler_frame.
      intros f Hf. rewrite HfileA in Hf. injection Hf as <-. congruence.
    - rewrite generate_from_audio_eq. apply media_handler_frame.
      intros f Hf. rewrite HfileA in Hf. injection Hf as <-. congruence. }
  split; [done|]. unfold file_handlers in HB.
  apply elem_of_cons in HB as [->|HB];
    [|apply elem_of_cons in HB as [->|HB]; [|by apply elem_of_nil in HB]].
  - rewrite generate_from_document_eq.
    by apply (media_handler_local _ _ _ _ _ fB).
  - rewrite generate_from_audio_eq.
    by apply (media_handler_local _ _ _ _ _ fB).
Qed.

Lemma uploads_isolated_witness :
  let d := <[ "uploads/3f2a9c" := mkInode pdf_bytes true true ]> wav_disk in
  let dA := disk (snd (run (generate_from_audio (answering "Hello world.")
                              (upload_request wav_file)) d)) in
  sent (snd (run (generate_from_document (answering "Summary: ...")
                    (upload_request pdf_file)) dA))
  = sent (snd (run (generate_from_document (answering "Summary: ...")
                      (upload_request pdf_file)) d)).
Proof.
  intros d dA.
  assert (generate_from_audio ∈ file_handlers) as HA
    by (apply list_elem_of_further, list_elem_of_here).
  assert (generate_from_document ∈ file_handlers) as HB
    by apply list_elem_of_here.
  assert (path wav_file <> path pdf_file) as Hpaths by (intros [=]).
  destruct (uploads_isolated generate_from_audio generate_from_document
              (answering "Hello world.") (answering "Summary: ...")
              (upload_request wav_file) (upload_request pdf_file)
              wav_file pdf_file d HA HB eq_refl eq_refl Hpaths)
    as (_ & _ & Hsent & _).
  exact Hsent.
Defined.

(** ** The instruction of the document and audio handlers *)

(** X12.  The document and the audio handler take no prompt from the
    request: whatever [req.body] holds (a [prompt] field, nothing, or no
    object at all), the first part of every input they pass to the model
    is their own literal. *)
Theorem instruction_is_fixed model req d input :
  (Generate input ∈ trace (snd (run (generate_from_document model req) d)) ->
   exists part, input = VArr [Text "Analyze this document:"; part]) /\
  (Generate input ∈ trace (snd (run (generate_from_audio model req) d)) ->
   exists part,
     input = VArr [Text "Transcribe or analyze the following audio:"; part]).
Proof.
  rewrite generate_from_document_eq, generate_from_audio_eq.
  assert (forall missing instruction label,
            Generate input
            ∈ trace (snd (run (media_handler missing instruction label
                                 model req) d)) ->
            exists part, input = VArr [Text instruction; part]) as Hany;
    [|split; apply Hany].
  intros missing instruction label.
  destruct (file req) as [f|] eqn:Hfile.
  - rewrite (media_handler_run _ _ _ _ _ f _ Hfile).
    unfold media_events, media_outcome, media_input.
    destruct (d !! path f) as [i|]; cbn [snd trace];
      destruct (read_file d (path f)) as [bytes|e0];
      try destruct (inference model _); cbn;
      intros Hin;
      repeat (apply elem_of_cons in Hin as [Hin|Hin];
              [try congruence; injection Hin as ->; by eexists|]);
      by apply elem_of_nil in Hin.
  - rewrite (media_handler_no_file _ _ _ _ _ _ Hfile).
    by intros ?%elem_of_nil.
Qed.

Lemma instruction_is_fixed_witness :
  exists part,
    Generate (VArr [Text "Analyze this document:"; part])
    ∈ trace (snd (run (generate_from_document (answering "Summary: ...")
                         {| body := VObj [("prompt", VStr "Translate it.")];
                            file := Some pdf_file |}) pdf_disk)) /\
    part = InlineMedia "JVBERi0xLjQ=" "application/pdf".
Proof.
  assert (Generate (VArr [Text "Analyze this document:";
                          InlineMedia "JVBERi0xLjQ=" "application/pdf"])
          ∈ trace (snd (run (generate_from_document (answering "Summary: ...")
                               {| body := VObj [("prompt", VStr "Translate it.")];
                                  file := Some pdf_file |}) pdf_disk))) as Hin
    by (vm_compute; apply list_elem_of_further, list_elem_of_here).
  destruct (proj1 (instruction_is_fixed _ _ _ _) Hin) as (part & [= <-]).
  by eexists.
Defined.

(** ** The image endpoint as it is *)

(** X15.  With [fileToGenerativePart] unbound, the only response the
    image handler ever writes is the 400 of a missing file: on no
    request does it answer 200 or 500. *)
Theorem image_handler_only_400 model req d r :
  sent (snd (run (generate_from_image fileToGenerativePart model req) d))
  = Some r ->
  r = mkResponse 400 (Plain "No image file uploaded.") /\
  file req = None /\ nullish (body req) = false.
Proof.
  destruct (nullish (body req)) eqn:Hbody.
  { destruct (get_prop_type_error (body req) "prompt" (init d) Hbody)
      as (e & _ & Hrun).
    unfold run, generate_from_image. unfold bind at 1. by rewrite Hrun. }
  destruct (file req) as [f|] eqn:Hfile.
  - by rewrite (generate_from_image_run _ _ _ f _ Hbody Hfile).
  - rewrite (generate_from_image_no_file _ _ _ _ Hbody Hfile).
    by intros [= <-].
Qed.

Lemma image_handler_only_400_witness :
  mkResponse 400 (Plain "No image file uploaded.")
  = mkResponse 400 (Plain "No image file uploaded.") /\
  file (mkRequest (VObj []) None) = None /\
  nullish (body (mkRequest (VObj []) None)) = false.
Proof.
  apply (image_handler_only_400 (answering "A cat.") (mkRequest (VObj []) None)
           png_disk).
  reflexivity.
Defined.

(** ** The base64 encoding of the upload *)

Section Base64.

Local Open Scope N_scope.

(** Each of the 64 characters of the alphabet stands for its position. *)
Lemma base64_index_char s : s < 64 -> base64_index (base64_char s) = Some s.
Proof.
  intros Hs. rewrite <- (N2Nat.id s).
  assert (N.to_nat s < 64)%nat as Hk by lia.
  generalize dependent (N.to_nat s). intros k Hk.
  do 64 (destruct k as [|k]; [vm_compute; reflexivity|]). lia.
Qed.

(** Or-ing below a shift is adding. *)
Lemma lor_shiftl_add a b k :
  b < 2 ^ k -> N.lor (N.shiftl a k) b = a * 2 ^ k + b.
Proof.
  intros Hb. rewrite N.shiftl_mul_pow2.
  rewrite <- N.lxor_lor, <- N.add_nocarry_lxor; try done.
  all: apply N.bits_inj; intros m; rewrite N.land_spec, N.bits_0.
  all: destruct (N.lt_ge_cases m k) as [Hlt|Hge].
  all: try (rewrite N.mul_pow2_bits_low by done; done).
  all: assert (N.testbit b m = false) as ->
    by (apply N.testbit_false; rewrite N.div_small; [done|];
        eapply N.lt_le_trans; [exact Hb|]; by apply N.pow_le_mono_r).
  all: apply andb_false_r.
Qed.


Lemma div_eq a b q r : r < b -> a = b * q + r -> a / b = q.
Proof. intros Hr Ha. symmetry. exact (N.div_unique a b q r Hr Ha). Qed.
Lemma mod_eq a b q r : r < b -> a = b * q + r -> a mod b = r.
Proof. intros Hr Ha. symmetry. exact (N.mod_unique a b q r Hr Ha). Qed.

(** The four six-bit groups of a 24-bit group give back its three bytes. *)
Lemma sextets_bytes A B C :
  A < 256 -> B < 256 -> C < 256 ->
  let n := A * 65536 + B * 256 + C in
  let s0 := n / 262144 mod 64 in
  let s1 := n / 4096 mod 64 in
  let s2 := n / 64 mod 64 in
  let s3 := n mod 64 in
  s0 < 64 /\ s1 < 64 /\ s2 < 64 /\ s3 < 64 /\
  s0 * 4 + s1 / 16 = A /\ s1 mod 16 * 16 + s2 / 4 = B /\ s2 mod 4 * 64 + s3 = C.
Proof.
  intros HA HB HC n s0 s1 s2 s3.
  pose proof (N.div_mod A 4 ltac:(lia)) as HAd.
  pose proof (N.mod_lt A 4 ltac:(lia)) as HAm.
  pose proof (N.div_mod B 16 ltac:(lia)) as HBd.
  pose proof (N.mod_lt B 16 ltac:(lia)) as HBm.
  pose proof (N.div_mod C 64 ltac:(lia)) as HCd.
  pose proof (N.mod_lt C 64 ltac:(lia)) as HCm.
  set (ah := A / 4) in *. set (al := A mod 4) in *.
  set (bh := B / 16) in *. set (bl := B mod 16) in *.
  set (ch := C / 64) in *. set (cl := C mod 64) in *.
  assert (s0 = ah) as H0.
  { subst s0. rewrite (div_eq n 262144 ah (al * 65536 + B * 256 + C)) by (subst n; lia).
    apply N.mod_small. lia. }
  assert (s1 = al * 16 + bh) as H1.
  { subst s1. rewrite (div_eq n 4096 (ah * 64 + al * 16 + bh) (bl * 256 + C)) by (subst n; lia).
    apply (mod_eq _ 64 ah). all: lia. }
  assert (s2 = bl * 4 + ch) as H2.
  { subst s2. rewrite (div_eq n 64 (A * 1024 + B * 4 + ch) cl) by (subst n; lia).
    apply (mod_eq _ 64 (A * 16 + bh)). all: lia. }
  assert (s3 = cl) as H3.
  { subst s3. apply (mod_eq _ 64 (A * 1024 + B * 4 + ch)). all: subst n; lia. }
  rewrite H0, H1, H2, H3.
  rewrite (div_eq (al * 16 + bh) 16 al bh) by lia.
  rewrite (mod_eq (al * 16 + bh) 16 al bh) by lia.
  rewrite (div_eq (bl * 4 + ch) 4 bl ch) by lia.
  rewrite (mod_eq (bl * 4 + ch) 4 bl ch) by lia.
  lia.
Qed.

(** The 24-bit group of three bytes, and its six-bit groups, as numbers. *)
Lemma group_value A B C :
  B < 256 -> C < 256 ->
  N.lor (N.lor (N.shiftl A 16) (N.shiftl B 8)) C = A * 65536 + B * 256 + C.
Proof.
  intros HB HC.
  rewrite (lor_shiftl_add A (N.shiftl B 8) 16)
    by (rewrite N.shiftl_mul_pow2; change (2 ^ 8) with 256;
        change (2 ^ 16) with 65536; lia).
  rewrite N.shiftl_mul_pow2. change (2 ^ 8) with 256. change (2 ^ 16) with 65536.
  replace (A * 65536 + B * 256) with (N.shiftl (A * 256 + B) 8)
    by (rewrite N.shiftl_mul_pow2; change (2 ^ 8) with 256; lia).
  rewrite (lor_shiftl_add _ C 8) by (change (2 ^ 8) with 256; lia).
  rewrite N.shiftl_mul_pow2. lia.
Qed.

Lemma sextet_value n k : N.land (N.shiftr n k) 63 = n / 2 ^ k mod 64.
Proof.
  rewrite N.shiftr_div_pow2. change 63 with (N.ones 6).
  by rewrite N.land_ones.
Qed.

(** The decoder on RFC 4648 vectors, and on text that is not base64. *)
Example base64_decode_rfc4648 :
  map base64_decode ["Zg=="; "Zm8="; "Zm9vYmFy"; "Zm9"; "Zm9v!A=="]
  = [Some (list_byte_of_string "f"); Some (list_byte_of_string "fo");
     Some (list_byte_of_string "foobar"); None; None].
Proof. reflexivity. Qed.

(** X13.  The base64 text of the upload loses nothing: decoding it gives
    back the bytes that were read, so two uploads with different
    contents never give the same [data] field. *)
Theorem base64_round_trip bytes1 bytes2 :
  base64_decode (base64 bytes1) = Some bytes1 /\
  (base64 bytes1 = base64 bytes2 -> bytes1 = bytes2).
Proof.
  assert (forall bs, base64_decode (base64 bs) = Some bs) as Hdecode.
  { assert (forall n bs, (length bs < n)%nat ->
              base64_decode (base64 bs) = Some bs) as Hall;
      [|intros bs; apply (Hall (S (length bs))); lia].
    induction n as [|n IH]; intros bs Hlen; [lia|].
    destruct bs as [|a [|b [|c rest]]]; [done| | |].
    - pose proof (Byte.to_N_bounded a) as Ha.
      destruct (sextets_bytes (Byte.to_N a) 0 0) as (H0 & H1 & _ & _ & HA & _);
        [lia..|].
      cbn [base64]. cbn zeta. rewrite !sextet_value.
      replace (N.shiftl (Byte.to_N a) 16) with (Byte.to_N a * 65536 + 0 * 256 + 0)
        by (rewrite N.shiftl_mul_pow2; change (2 ^ 16) with 65536; lia).
      change (2 ^ 18) with 262144. change (2 ^ 12) with 4096.
      cbn [base64_decode]. rewrite !base64_index_char by done.
      change (base64_index "=") with (@None N). cbn zeta.
      cbn [Ascii.eqb String.eqb andb Bool.eqb].
      rewrite HA. by rewrite Byte.of_to_N.
    - pose proof (Byte.to_N_bounded a) as Ha.
      pose proof (Byte.to_N_bounded b) as Hb.
      destruct (sextets_bytes (Byte.to_N a) (Byte.to_N b) 0)
        as (H0 & H1 & H2 & _ & HA & HB & _); [lia..|].
      cbn [base64]. cbn zeta. rewrite !sextet_value.
      rewrite <- (N.lor_0_r (N.lor _ _)), group_value by lia.
      change (2 ^ 18) with 262144. change (2 ^ 12) with 4096.
      change (2 ^ 6) with 64.
      cbn [base64_decode]. rewrite !base64_index_char by done.
      change (base64_index "=") with (@None N). cbn zeta.
      cbn [Ascii.eqb String.eqb andb Bool.eqb].
      rewrite HA, HB. by rewrite !Byte.of_to_N.
    - pose proof (Byte.to_N_bounded a) as Ha.
      pose proof (Byte.to_N_bounded b) as Hb.
      pose proof (Byte.to_N_bounded c) as Hc.
      destruct (sextets_bytes (Byte.to_N a) (Byte.to_N b) (Byte.to_N c))
        as (H0 & H1 & H2 & H3 & HA & HB & HC); [lia..|].
      cbn [base64]. cbn zeta. rewrite !sextet_value.
      rewrite <- (N.shiftr_0_r (N.lor _ _)) at 4. rewrite sextet_value.
      rewrite group_value by lia.
      change (2 ^ 18) with 262144. change (2 ^ 12) with 4096.
      change (2 ^ 6) with 64. change (2 ^ 0) with 1. rewrite N.div_1_r.
      cbn [base64_decode]. rewrite !base64_index_char by done. cbn zeta.
      rewrite HA, HB, HC, !Byte.of_to_N.
      rewrite IH by (cbn in Hlen; lia). done. }
  split; [apply Hdecode|].
  intros Heq. apply (f_equal base64_decode) in Heq.
  rewrite !Hdecode in Heq. by injection Heq.
Qed.

Lemma string_get_beyond s n :
  (String.length s <= n)%nat -> String.get n s = None.
Proof.
  revert n. induction s as [|c s IH]; intros [|n] Hlen; cbn in *;
    try done; try lia.
  apply IH. lia.
Qed.

(** Every character [base64_char] yields is one of the alphabet or the
    padding character. *)
Lemma base64_char_valid s :
  is_Some (base64_index (base64_char s)) \/ base64_char s = "="%char.
Proof.
  destruct (N.lt_ge_cases s 64) as [Hlt|Hge].
  - left. rewrite base64_index_char by done. by eexists.
  - right. unfold base64_char. rewrite string_get_beyond; [done|].
    change (String.length base64_alphabet) with 64%nat. lia.
Qed.

(** X14.  The [data] field is well-formed base64 of the expected size:
    four characters for every group of three bytes, the last group
    padded, and every character one of the 64 of the alphabet or [=]. *)
Theorem base64_shape bytes :
  String.length (base64 bytes) = (4 * ((length bytes + 2) / 3))%nat /\
  Forall (fun c => is_Some (base64_index c) \/ c = "="%char)
    (list_ascii_of_string (base64 bytes)).
Proof.
  split; [apply base64_length|].
  assert (forall n bs, (length bs < n)%nat ->
            Forall (fun c => is_Some (base64_index c) \/ c = "="%char)
              (list_ascii_of_string (base64 bs))) as Hall;
    [|apply (Hall (S (length bytes))); lia].
  induction n as [|n IH]; intros bs Hlen; [lia|].
  destruct bs as [|a [|b [|c rest]]];
    cbn [base64 list_ascii_of_string]; cbn zeta;
    repeat (apply Forall_cons; split;
            [first [apply base64_char_valid | by right]|]);
    try apply Forall_nil_2.
  apply IH. cbn in Hlen. lia.
Qed.

End Base64.
